(** * The entity hierarchy engine of zolaris-go-backend

    A shallow embedding of [internal/services/entity_service.go] and of
    [UpdateUserParentID] from [internal/repositories/user_repository.go],
    with the repositories the engine talks to kept as interfaces, and the
    properties of the engine that the specification states. *)

From Stdlib Require Import ZArith String List Lia.
From stdpp Require Import base option list gmap strings pretty.

Set Warnings "-register-all".
Set Default Proof Using "Type".

(** ** Go values *)

Module Go.

(** Go's [error] values as the code builds them: [errors.New] or a
    [fmt.Errorf] without a wrapped operand gives a plain message;
    [fmt.Errorf] with [%w] applied to an error keeps the cause. *)
Inductive error : Type :=
| errorString (s : string)
| wrapError (msg : string) (err : error).

(** [err.Error()] *)
Definition Error (e : error) : string :=
  match e with
  | errorString s => s
  | wrapError msg _ => msg
  end.

(** [errors.Unwrap(err)] *)
Definition Unwrap (e : error) : option error :=
  match e with
  | errorString _ => None
  | wrapError _ err => Some err
  end.

(** [fmt.Errorf(msg)] for a format string without verbs. *)
Definition Errorf (msg : string) : error := errorString msg.

(** [fmt.Errorf(prefix + "%w", err)] with [err] an error. *)
Definition Errorf_w (prefix : string) (err : error) : error :=
  wrapError (prefix +:+ Error err) err.

(** [fmt.Errorf(prefix + "%w", v)] with [v] a string: the operand is no
    error, so fmt prints the bad-verb form [%!w(string=v)] and the result
    wraps nothing. *)
Definition Errorf_w_string (prefix : string) (v : string) : error :=
  errorString (prefix +:+ "%!w(string=" +:+ v +:+ ")").

(** [fmt.Sprintf] for a format with one [%s]. *)
Definition Sprintf_s (before : string) (v : string) (after : string) : string :=
  before +:+ v +:+ after.

(** The dynamic values of [any] that a decoded JSON document holds.  The
    engine only looks at the dynamic type, never at a number's value. *)
Inductive any : Type :=
| anyNil
| anyBool (b : bool)
| anyNumber (n : Z)
| anyString (s : string)
| anySlice (l : list any)
| anyMap (m : gmap string any).

(** [v, ok := x.(string)] *)
Definition assert_string (x : any) : string * bool :=
  match x with
  | anyString s => (s, true)
  | _ => (""%string, false)
  end.

(** [v, ok := m[k]] on a [map[string]any]; [None] is the nil map, which
    reads as empty. *)
Definition map_index (m : option (gmap string any)) (k : string) : any * bool :=
  match m with
  | Some g =>
      match g !! k with
      | Some v => (v, true)
      | None => (anyNil, false)
      end
  | None => (anyNil, false)
  end.

(** [make(map[string]any)] *)
Definition make_map : option (gmap string any) := Some ∅.

(** [strings.Contains(s, substr)] *)
Fixpoint Contains (s substr : string) : bool :=
  if String.prefix substr s then true
  else match s with
       | EmptyString => false
       | String _ rest => Contains rest substr
       end.

End Go.

Import Go.

(** ** The PostgreSQL database behind the repositories *)

Module Pg.

(** A row of [z_users], with the columns the repository's statements name;
    [address] holds JSON text, [parent_id] is nullable, and the two
    timestamps are instants. *)
Record UserRow : Type := mkUserRow {
  user_id : string;
  user_email : string;
  user_first_name : string;
  user_last_name : string;
  user_phone : string;
  user_cognito_id : string;
  user_referral_mail : string;
  user_role : string;
  user_address : string;
  user_parent_id : option string;
  user_created_at : Z;
  user_updated_at : Z
}.

(** Modelled from the spec: the declaration of [domain.Entity] is missing
    from the sources.  An entity has an identifier, a name, a category, an
    optional parent (null for roots), an owning user, a depth (root = 0,
    child = parent.depth + 1), a free-form detail document and creation and
    update timestamps. *)
Record Entity : Type := mkEntity {
  entity_id : string;
  entity_name : string;
  entity_category_id : string;
  entity_parent_id : option string;
  entity_user_id : string;
  entity_depth : nat;
  entity_details : option (gmap string any);
  entity_created_at : Z;
  entity_updated_at : Z
}.

(** Modelled from the spec: the declaration of the category record is
    missing from the sources.  A category has an identifier, a name and a
    semantic type, a string tag such as "user". *)
Record Category : Type := mkCategory {
  category_id : string;
  category_name : string;
  category_type : string
}.

(** The tables the repositories work on, with what a statement depends on
    besides them. *)
Record Database : Type := mkDatabase {
  z_users : list UserRow;
  z_entities : list Entity;
  z_categories : list Category;
  next_serial : N;        (* source of fresh entity identifiers *)
  clock : Z;              (* what NOW() returns *)
  fault : option error    (* a broken connection: every statement fails with it *)
}.

(** What a repository method can touch: the database and the process's
    log output (the [log] package writes one line per call). *)
Record Sys : Type := mkSys {
  database : Database;
  stderr : list string
}.

(** A repository method: it reads and writes [Sys] and returns a value. *)
Definition Method (A : Type) : Type := Sys → A * Sys.

Definition with_database (d : Database) (s : Sys) : Sys :=
  {| database := d; stderr := stderr s |}.

(** [log.Println(line)] / [log.Printf(line)] *)
Definition log_Println (line : string) (s : Sys) : Sys :=
  {| database := database s; stderr := stderr s ++ [line] |}.

Definition set_parent (parentID : option string) (now : Z) (u : UserRow) : UserRow :=
  {| user_id := user_id u;
     user_email := user_email u;
     user_first_name := user_first_name u;
     user_last_name := user_last_name u;
     user_phone := user_phone u;
     user_cognito_id := user_cognito_id u;
     user_referral_mail := user_referral_mail u;
     user_role := user_role u;
     user_address := user_address u;
     user_parent_id := parentID;
     user_created_at := user_created_at u;
     user_updated_at := now |}.

Definition has_user_id (userID : string) (u : UserRow) : bool :=
  (user_id u =? userID)%string.

(** [Exec] of
    [UPDATE z_users SET parent_id = $1, updated_at = NOW() WHERE user_id = $2]:
    the rows whose [user_id] is [$2] are rewritten, and the command tag
    carries how many there were.  On a broken connection nothing changes
    and the error comes back. *)
Definition Exec_update_parent_id (parentID : option string) (userID : string)
    (d : Database) : (Z * option error) * Database :=
  match fault d with
  | Some e => ((0%Z, Some e), d)
  | None =>
      let rows := List.filter (has_user_id userID) (z_users d) in
      ((Z.of_nat (length rows), None),
       {| z_users := map (λ u, if has_user_id userID u
                               then set_parent parentID (clock d) u else u)
                         (z_users d);
          z_entities := z_entities d;
          z_categories := z_categories d;
          next_serial := next_serial d;
          clock := clock d;
          fault := fault d |})
  end.

End Pg.

Import Pg.


(** ** Repositories *)

Module repositories.

(** The methods of the interface [EntityRepository] that the engine calls,
    with the signatures of the calls in [entity_service.go].  A Go result
    pair [(v, err)] is a pair whose second component is [None] for a nil
    error; a nil slice or map is [None]. *)
Record EntityRepository : Type := mkEntityRepository {
  CheckEntityPresence : string → Method (bool * option error);
  CreateRootEntity :
    string → string → string → option (gmap string any) → Method (string * option error);
  CreateSubEntity :
    string → string → string → option (gmap string any) → string →
    Method (string * option error);
  GetCategoryIDByEntityID : string → Method (string * option error);
  GetCategoryType : string → Method (string * option error);
  GetChildEntities : string → bool → Method (option (list Entity) * option error);
  GetEntityHierarchy : string → Method (option (gmap string any) * option error);
  ListEntityChildren : string → Z → string → Method (option (list Entity) * option error);
  GetEntityID : string → Method (string * option error)
}.

(** The method of [UserRepositoryInterface] that the engine calls;
    [parentID] is a [*string], [None] for nil. *)
Record UserRepositoryInterface : Type := mkUserRepositoryInterface {
  UpdateUserParentID : string → option string → Method (option error)
}.

(** A [*pgxpool.Pool]: the handle on the database of [Sys]. *)
Inductive Pool : Type := pgxPool.

(** [type UserRepository struct { db *pgxpool.Pool }] *)
Record UserRepository : Type := mkUserRepository {
  db : option Pool
}.

(** [func (r *UserRepository) UpdateUserParentID(ctx, userID, parentID) error] *)
Definition UserRepository_UpdateUserParentID (r : UserRepository)
    (userID : string) (parentID : option string) : Method (option error) :=
  λ s,
    let s := log_Println "ERROR: r.db is nil in UpdateUserParentID!" s in
    match db r with
    | None =>
        let s := log_Println "ERROR: r.db is nil in UpdateUserParentID!" s in
        (Some (Errorf "database connection is not initialized"), s)
    | Some _ =>
        let '((result, err), d) := Exec_update_parent_id parentID userID (database s) in
        let s := with_database d s in
        match err with
        | Some err =>
            (Some (Errorf_w (Sprintf_s "error updating user parent_id for user " userID ": ")
                            err), s)
        | None =>
            let rowsAffected := result in
            let s :=
              if (rowsAffected =? 0)%Z
              then log_Println
                     (Sprintf_s "Warning: No user found with ID " userID " to update parent_id") s
              else s in
            (None, s)
        end
    end.

(** [func NewUserRepository(dbPool *pgxpool.Pool) UserRepositoryInterface] *)
Definition NewUserRepository (dbPool : option Pool) : UserRepositoryInterface :=
  {| UpdateUserParentID := UserRepository_UpdateUserParentID {| db := dbPool |} |}.

End repositories.

Import repositories.

(** ** An entity store over the database

    The PostgreSQL implementation of [EntityRepository] is missing from the
    sources.  This store follows the specification's description of the
    Entity Store and the Category Store.  The engine's properties below are
    proved for every [EntityRepository]; this one is the concrete instance
    they are run on. *)

Module memstore.

(** The store's NotFound errors. *)
Definition NotFound (what : string) : error := errorString (what +:+ " not found").

(** Run a statement unless the connection is broken. *)
Definition statement {A : Type} (zero : A)
    (op : Database → (A * option error) * Database) : Method (A * option error) :=
  λ s,
    match fault (database s) with
    | Some e => ((zero, Some e), s)
    | None => let '(r, d) := op (database s) in (r, with_database d s)
    end.

Definition find_entity (id : string) (es : list Entity) : option Entity :=
  List.find (λ e, (entity_id e =? id)%string) es.

Definition find_category (id : string) (cs : list Category) : option Category :=
  List.find (λ c, (category_id c =? id)%string) cs.

Definition is_child_of (id : string) (e : Entity) : bool :=
  match entity_parent_id e with
  | Some p => (p =? id)%string
  | None => false
  end.

Definition children_of (es : list Entity) (id : string) : list Entity :=
  List.filter (is_child_of id) es.

(** The descendants of [id] down to [levels] levels below it. *)
Fixpoint descendants (levels : nat) (es : list Entity) (id : string) : list Entity :=
  match levels with
  | O => []
  | S n =>
      let cs := children_of es id in
      cs ++ flat_map (λ c, descendants n es (entity_id c)) cs
  end.

Definition fresh_id (d : Database) : string := "ent-" +:+ pretty (next_serial d).

Definition add_entity (e : Entity) (d : Database) : Database :=
  {| z_users := z_users d;
     z_entities := z_entities d ++ [e];
     z_categories := z_categories d;
     next_serial := N.succ (next_serial d);
     clock := clock d;
     fault := fault d |}.

(** Modelled from the spec: the store's [CheckEntityPresence] is missing.
    [CheckPresence(user_id) -> bool] is the storage presence check of an
    entity for a user. *)
Definition mem_CheckEntityPresence (userId : string) : Method (bool * option error) :=
  statement false (λ d,
    ((existsb (λ e, (entity_user_id e =? userId)%string) (z_entities d), None), d)).

(** Modelled from the spec: the store's [CreateRootEntity] is missing.
    [CreateRoot] persists a new entity with parent = none and depth = 0 and
    returns its identifier. *)
Definition mem_CreateRootEntity (categoryId entityName userId : string)
    (details : option (gmap string any)) : Method (string * option error) :=
  statement ""%string (λ d,
    let id := fresh_id d in
    ((id, None),
     add_entity (mkEntity id entityName categoryId None userId 0 details (clock d) (clock d)) d)).

(** Modelled from the spec: the store's [CreateSubEntity] is missing.
    [CreateSub] persists a new entity with parent = parent_id, depth =
    parent.depth + 1 and the supplied details; the parent must exist. *)
Definition mem_CreateSubEntity (categoryId entityName userId : string)
    (details : option (gmap string any)) (parentEntityID : string) :
    Method (string * option error) :=
  statement ""%string (λ d,
    match find_entity parentEntityID (z_entities d) with
    | None => ((""%string, Some (NotFound "parent entity")), d)
    | Some p =>
        let id := fresh_id d in
        ((id, None),
         add_entity (mkEntity id entityName categoryId (Some parentEntityID) userId
                              (S (entity_depth p)) details (clock d) (clock d)) d)
    end).

(** Modelled from the spec: the store's [GetCategoryIDByEntityID] is
    missing.  [resolve_entity_category(entity_id)] gives the entity's
    category and fails with NotFound if the entity does not exist. *)
Definition mem_GetCategoryIDByEntityID (entityID : string) : Method (string * option error) :=
  statement ""%string (λ d,
    match find_entity entityID (z_entities d) with
    | None => ((""%string, Some (NotFound "entity")), d)
    | Some e => ((entity_category_id e, None), d)
    end).

(** Modelled from the spec: the store's [GetCategoryType] is missing.
    [resolve_category_type(category_id)] gives the category's type and
    fails with NotFound if the category does not exist. *)
Definition mem_GetCategoryType (categoryID : string) : Method (string * option error) :=
  statement ""%string (λ d,
    match find_category categoryID (z_categories d) with
    | None => ((""%string, Some (NotFound "category")), d)
    | Some c => ((category_type c, None), d)
    end).

(** Modelled from the spec: the store's [GetChildEntities] is missing.
    [GetChildren(entity_id, recursive)] returns the direct children, or
    with [recursive] every descendant. *)
Definition mem_GetChildEntities (entityId : string) (recursive : bool) :
    Method (option (list Entity) * option error) :=
  statement None (λ d,
    let es := z_entities d in
    ((Some (if recursive then descendants (length es) es entityId
            else children_of es entityId), None), d)).

Definition has_category_type (cs : list Category) (categoryType : string) (e : Entity) : bool :=
  match find_category (entity_category_id e) cs with
  | Some c => (category_type c =? categoryType)%string
  | None => false
  end.

(** Modelled from the spec: the store's [ListEntityChildren] is missing.
    [GetByLevel(entity_id, level, category_type)]: level 0 is the direct
    children, -1 every descendant, a positive N the descendants up to N
    levels deep; a non-empty type keeps the entities whose category has
    exactly that type. *)
Definition mem_ListEntityChildren (entityId : string) (level : Z) (categoryType : string) :
    Method (option (list Entity) * option error) :=
  statement None (λ d,
    let es := z_entities d in
    let levels :=
      if (level =? -1)%Z then length es
      else if (level =? 0)%Z then 1%nat
      else Z.to_nat level in
    let found := descendants levels es entityId in
    ((Some (if (categoryType =? "")%string then found
            else List.filter (has_category_type (z_categories d) categoryType) found),
      None), d)).

Definition node_document (e : Entity) (children : list any) : gmap string any :=
  <["id" := anyString (entity_id e)]>
  (<["name" := anyString (entity_name e)]>
  (<["category_id" := anyString (entity_category_id e)]>
  (<["depth" := anyNumber (Z.of_nat (entity_depth e))]>
  (<["children" := anySlice children]> ∅)))).

Fixpoint hierarchy (fuel : nat) (es : list Entity) (e : Entity) : gmap string any :=
  match fuel with
  | O => node_document e []
  | S n =>
      node_document e
        (List.map (λ c, anyMap (hierarchy n es c)) (children_of es (entity_id e)))
  end.

(** Modelled from the spec: the store's [GetEntityHierarchy] is missing.
    [GetHierarchy(root_id)] builds the nested document of the root and all
    its descendants, each node with its entity fields and its children, and
    fails with NotFound if the root does not exist. *)
Definition mem_GetEntityHierarchy (rootEntityId : string) :
    Method (option (gmap string any) * option error) :=
  statement None (λ d,
    let es := z_entities d in
    match find_entity rootEntityId es with
    | None => ((None, Some (NotFound "entity")), d)
    | Some e => ((Some (hierarchy (length es) es e), None), d)
    end).

(** Modelled from the spec: the store's [GetEntityID] is missing, and the
    spec leaves it out; as in the presence check, the entity of a user is
    one that the user owns. *)
Definition mem_GetEntityID (userId : string) : Method (string * option error) :=
  statement ""%string (λ d,
    match List.find (λ e, (entity_user_id e =? userId)%string) (z_entities d) with
    | None => ((""%string, Some (NotFound "entity")), d)
    | Some e => ((entity_id e, None), d)
    end).

Definition store : EntityRepository :=
  {| CheckEntityPresence := mem_CheckEntityPresence;
     CreateRootEntity := mem_CreateRootEntity;
     CreateSubEntity := mem_CreateSubEntity;
     GetCategoryIDByEntityID := mem_GetCategoryIDByEntityID;
     GetCategoryType := mem_GetCategoryType;
     GetChildEntities := mem_GetChildEntities;
     GetEntityHierarchy := mem_GetEntityHierarchy;
     ListEntityChildren := mem_ListEntityChildren;
     GetEntityID := mem_GetEntityID |}.

End memstore.


(** ** The entity service

    Every method takes a [context.Context] and hands it to the repository
    methods it calls; the engine itself never reads it, so it is left out.
    A repository method that gives up on a cancelled context returns an
    error like any other. *)

Module services.

(** A call of the engine into one of its repositories, with its arguments. *)
Inductive Call : Type :=
| CallCheckEntityPresence (userId : string)
| CallCreateRootEntity (categoryId entityName userId : string)
    (details : option (gmap string any))
| CallCreateSubEntity (categoryId entityName userId : string)
    (details : option (gmap string any)) (parentEntityID : string)
| CallGetCategoryIDByEntityID (entityID : string)
| CallGetCategoryType (categoryID : string)
| CallGetChildEntities (entityId : string) (recursive : bool)
| CallGetEntityHierarchy (rootEntityId : string)
| CallListEntityChildren (entityId : string) (level : Z) (categoryType : string)
| CallGetEntityID (userId : string)
| CallUpdateUserParentID (userID : string) (parentID : option string).

(** The only call that goes to the user repository. *)
Definition is_user_call (c : Call) : bool :=
  match c with
  | CallUpdateUserParentID _ _ => true
  | _ => false
  end.

Definition is_entity_call (c : Call) : bool := negb (is_user_call c).

(** The state a service method runs in: what the repositories see, and the
    calls made into them so far, oldest first. *)
Record World : Type := mkWorld {
  sys : Sys;
  calls : list Call
}.

Definition Svc (A : Type) : Type := World → A * World.

Definition ret {A : Type} (a : A) : Svc A := λ w, (a, w).

Definition bind {A B : Type} (m : Svc A) (k : A → Svc B) : Svc B :=
  λ w, let '(a, w') := m w in k a w'.

(** Calling a repository method: the call is recorded and the method runs
    on the repositories' state. *)
Definition invoke {A : Type} (c : Call) (m : Method A) : Svc A :=
  λ w, let '(a, s) := m (sys w) in (a, {| sys := s; calls := calls w ++ [c] |}).

Notation "'let*' x ':=' m 'in' k" := (bind m (λ x, k))
  (at level 10, x name, m at level 100, k at level 200, only parsing).
Notation "'let*' ' p ':=' m 'in' k" := (bind m (λ x, let 'p := x in k))
  (at level 10, p pattern, m at level 100, k at level 200, only parsing).

(** [type EntityService struct { repo; userRepo }] *)
Record EntityService : Type := mkEntityService {
  repo : EntityRepository;
  userRepo : UserRepositoryInterface
}.

Definition NewEntityService (repo : EntityRepository) (userRepo : UserRepositoryInterface) :
    EntityService :=
  {| repo := repo; userRepo := userRepo |}.

Definition CheckEntityExists (s : EntityService) (userId : string) :
    Svc (bool * option error) :=
  if (userId =? "")%string then
    ret (false, Some (Errorf "user ID cannot be empty"))
  else
    invoke (CallCheckEntityPresence userId)
           (repositories.CheckEntityPresence (repo s) userId).

Definition CreateRootEntity (s : EntityService) (categoryId entityName userId : string)
    (details : option (gmap string any)) : Svc (string * option error) :=
  if (categoryId =? "")%string then
    ret (""%string, Some (Errorf "category ID cannot be empty"))
  else if (entityName =? "")%string then
    ret (""%string, Some (Errorf "entity name cannot be empty"))
  else
    let details := match details with None => make_map | Some _ => details end in
    invoke (CallCreateRootEntity categoryId entityName userId details)
           (repositories.CreateRootEntity (repo s) categoryId entityName userId details).

Definition CreateSubEntity (s : EntityService) (categoryId entityName userId : string)
    (details : option (gmap string any)) (parentEntityID : string) :
    Svc (string * option error) :=
  if (categoryId =? "")%string then
    ret (""%string, Some (Errorf "category ID cannot be empty"))
  else if (entityName =? "")%string then
    ret (""%string, Some (Errorf "entity name cannot be empty"))
  else
    let details := match details with None => make_map | Some _ => details end in
    let* '(parentCategoryID, err) :=
      invoke (CallGetCategoryIDByEntityID parentEntityID)
             (repositories.GetCategoryIDByEntityID (repo s) parentEntityID) in
    match err with
    | Some err => ret (""%string, Some (Errorf_w "failed to get parent's category ID: " err))
    | None =>
    let* '(parentCategoryType, err) :=
      invoke (CallGetCategoryType parentCategoryID)
             (repositories.GetCategoryType (repo s) parentCategoryID) in
    match err with
    | Some err => ret (""%string, Some (Errorf_w "failed to get parent's category type: " err))
    | None =>
    let* '(currentCategoryType, err) :=
      invoke (CallGetCategoryType categoryId)
             (repositories.GetCategoryType (repo s) categoryId) in
    match err with
    | Some err => ret (""%string, Some (Errorf_w "failed to get parent's category type: " err))
    | None =>
    let* '(subentityID, err) :=
      invoke (CallCreateSubEntity categoryId entityName userId details parentEntityID)
             (repositories.CreateSubEntity (repo s) categoryId entityName userId details
                                           parentEntityID) in
    match err with
    | Some err => ret (""%string, Some (Errorf_w "failed to create sub-entity: " err))
    | None =>
    if (parentCategoryType =? "user")%string && (currentCategoryType =? "user")%string then
      let '(subuserRaw, ok) := map_index details "subuser_id" in
      if negb ok then
        ret (""%string,
             Some (Errorf_w_string "subuser_id not found in details : " parentCategoryType))
      else
        let '(subuserID, ok) := assert_string subuserRaw in
        if negb ok then
          ret (""%string, Some (Errorf "subuser_id must be a string"))
        else
          let* err := invoke (CallUpdateUserParentID subuserID (Some parentEntityID))
                       (repositories.UpdateUserParentID (userRepo s) subuserID
                                                        (Some parentEntityID)) in
          match err with
          | Some err =>
              ret (""%string, Some (Errorf_w "failed to update user parent ID: " err))
          | None => ret (subentityID, None)
          end
    else
      ret (subentityID, None)
    end end end end.

Definition GetChildEntities (s : EntityService) (entityId : string) (recursive : bool) :
    Svc (option (list Entity) * option error) :=
  if (entityId =? "")%string then
    ret (None, Some (Errorf "entity ID cannot be empty"))
  else
    invoke (CallGetChildEntities entityId recursive)
           (repositories.GetChildEntities (repo s) entityId recursive).

Definition GetEntityHierarchy (s : EntityService) (rootEntityId : string) :
    Svc (option (gmap string any) * option error) :=
  if (rootEntityId =? "")%string then
    ret (None, Some (Errorf "root entity ID cannot be empty"))
  else
    invoke (CallGetEntityHierarchy rootEntityId)
           (repositories.GetEntityHierarchy (repo s) rootEntityId).

(** [level] is a Go [int]; the method only compares it. *)
Definition ListEntityChildren (s : EntityService) (entityId : string) (level : Z)
    (categoryType : string) : Svc (option (list Entity) * option error) :=
  if (entityId =? "")%string then
    ret (None, Some (Errorf "entity ID cannot be empty"))
  else if (level <? -1)%Z then
    ret (None,
         Some (Errorf "invalid level: must be -1 (all levels), 0 (direct children only), or a positive integer"))
  else
    invoke (CallListEntityChildren entityId level categoryType)
           (repositories.ListEntityChildren (repo s) entityId level categoryType).

Definition GetEntityID (s : EntityService) (userId : string) : Svc (string * option error) :=
  if (userId =? "")%string then
    ret (""%string, Some (Errorf "user ID is empty"))
  else
    invoke (CallGetEntityID userId) (repositories.GetEntityID (repo s) userId).

End services.


(** ** Vocabulary of the properties *)

Module props.

Import services.

(** The detail document the engine works with: a nil map is replaced by an
    empty one. *)
Definition or_empty (details : option (gmap string any)) : option (gmap string any) :=
  match details with
  | None => make_map
  | Some _ => details
  end.

(** The value stored under a key of a detail document. *)
Definition field (details : option (gmap string any)) (k : string) : option any :=
  match details with
  | Some g => g !! k
  | None => None
  end.

(** The calls a service method added to the record. *)
Definition new_calls (before after : World) : list Call :=
  drop (length (calls before)) (calls after).

(** The calls among [l] that went to the user repository. *)
Definition user_calls (l : list Call) : list Call := List.filter is_user_call l.

(** The persistence step of [CreateSubEntity]. *)
Definition is_persist_call (c : Call) : bool :=
  match c with
  | CallCreateSubEntity _ _ _ _ _ => true
  | _ => false
  end.

(** Steps 1 and 2 of [CreateSubEntity] ran from [s0] without error: the
    parent's category [parentCategoryID], its type [parentType] and the new
    entity's own type [currentType], leaving the repositories in [s3]. *)
Definition Resolved (r : EntityRepository) (categoryId parentEntityID : string) (s0 : Sys)
    (parentCategoryID parentType currentType : string) (s3 : Sys) : Prop :=
  ∃ s1 s2 : Sys,
    GetCategoryIDByEntityID r parentEntityID s0 = ((parentCategoryID, None), s1)
    ∧ GetCategoryType r parentCategoryID s1 = ((parentType, None), s2)
    ∧ GetCategoryType r categoryId s2 = ((currentType, None), s3).

(** Step 3 ran from [s3] without error: the store created the sub-entity
    [subentityID] and left the repositories in [s4]. *)
Definition Persisted (r : EntityRepository) (categoryId entityName userId : string)
    (details : option (gmap string any)) (parentEntityID : string) (s3 : Sys)
    (subentityID : string) (s4 : Sys) : Prop :=
  repositories.CreateSubEntity r categoryId entityName userId (or_empty details)
                               parentEntityID s3
  = ((subentityID, None), s4).

(** The calls of steps 1 to 3, in the order the engine makes them. *)
Definition calls_to_persist (categoryId entityName userId : string)
    (details : option (gmap string any)) (parentEntityID parentCategoryID : string) :
    list Call :=
  [ CallGetCategoryIDByEntityID parentEntityID;
    CallGetCategoryType parentCategoryID;
    CallGetCategoryType categoryId;
    CallCreateSubEntity categoryId entityName userId (or_empty details) parentEntityID ].

(** A call with valid inputs that got through steps 1 to 3. *)
Definition ReachesCrossLink (s : EntityService) (categoryId entityName userId : string)
    (details : option (gmap string any)) (parentEntityID : string) (s0 : Sys)
    (parentCategoryID parentType currentType subentityID : string) (s4 : Sys) : Prop :=
  categoryId ≠ ""%string ∧ entityName ≠ ""%string ∧
  ∃ s3 : Sys,
    Resolved (repo s) categoryId parentEntityID s0 parentCategoryID parentType currentType s3
    ∧ Persisted (repo s) categoryId entityName userId details parentEntityID s3 subentityID s4.

End props.

(** ** A concrete system *)

Module scenario.

Definition users : list UserRow :=
  [ mkUserRow "u42" "u42@example.org" "Uma" "Reyes" "555-0142" "cog-42" "u1@example.org"
              "member" "null" None 10 10;
    mkUserRow "u1" "u1@example.org" "Ada" "Lind" "555-0101" "cog-1" "" "owner"
              "null" None 5 5 ].

Definition entities : list Entity :=
  [ mkEntity "e7" "ada" "cat-user" None "u1" 0 (Some ∅) 20 20;
    mkEntity "e8" "acme" "cat-org" None "u1" 0 (Some ∅) 21 21 ].

Definition categories : list Category :=
  [ mkCategory "cat-user" "Users" "user";
    mkCategory "cat-org" "Organizations" "organization" ].

Definition db0 : Database := mkDatabase users entities categories 9 1000 None.

Definition w0 : services.World :=
  services.mkWorld {| database := db0; stderr := [] |} [].

(** The engine over the store and the PostgreSQL user repository. *)
Definition svc : services.EntityService :=
  services.NewEntityService memstore.store (NewUserRepository (Some pgxPool)).

(** A store whose persistence step fails. *)
Definition failing_store : EntityRepository :=
  {| CheckEntityPresence := CheckEntityPresence memstore.store;
     CreateRootEntity := CreateRootEntity memstore.store;
     CreateSubEntity := λ _ _ _ _ _ s,
       ((""%string, Some (errorString "storage unavailable")), s);
     GetCategoryIDByEntityID := GetCategoryIDByEntityID memstore.store;
     GetCategoryType := GetCategoryType memstore.store;
     GetChildEntities := GetChildEntities memstore.store;
     GetEntityHierarchy := GetEntityHierarchy memstore.store;
     ListEntityChildren := ListEntityChildren memstore.store;
     GetEntityID := GetEntityID memstore.store |}.

Definition svc_failing_store : services.EntityService :=
  services.NewEntityService failing_store (NewUserRepository (Some pgxPool)).

(** The engine with a user repository that has no connection pool. *)
Definition svc_no_pool : services.EntityService :=
  services.NewEntityService memstore.store (NewUserRepository None).

Definition with_subuser (v : any) : option (gmap string any) :=
  Some (<["subuser_id" := v]> ∅).

(** The repositories after the store has persisted "bob" of category
    "cat-user" under "e7", starting from [w0]. *)
Definition persisted (details : option (gmap string any)) : Sys :=
  snd (CreateSubEntity memstore.store "cat-user" "bob" "u1" (props.or_empty details) "e7"
                       (services.sys w0)).

End scenario.


(** ** Properties *)

Import props.

(** *** The user repository *)

(** The rows of [z_users] after [UpdateUserParentID] on a working connection. *)
Lemma UpdateUserParentID_users (pool : Pool) (userID : string) (parentID : option string)
    (sy : Sys) :
  fault (database sy) = None →
  z_users (database (snd (UserRepository_UpdateUserParentID
                            (mkUserRepository (Some pool)) userID parentID sy)))
  = map (λ u, if has_user_id userID u then set_parent parentID (clock (database sy)) u else u)
        (z_users (database sy)).
Proof.
  intros Hf. unfold UserRepository_UpdateUserParentID, Exec_update_parent_id. cbn.
  rewrite Hf. cbn. by destruct (_ =? 0)%Z.
Qed.

(** [UpdateUserParentID] leaves the entities alone. *)
Lemma UpdateUserParentID_entities (r : UserRepository) (userID : string)
    (parentID : option string) (sy : Sys) :
  z_entities (database (snd (UserRepository_UpdateUserParentID r userID parentID sy)))
  = z_entities (database sy).
Proof.
  unfold UserRepository_UpdateUserParentID, Exec_update_parent_id.
  destruct (db r); [|reflexivity]. cbn.
  destruct (fault (database sy)); [reflexivity|]. cbn. by destruct (_ =? 0)%Z.
Qed.

(** A statement that names an unknown user matches no row ... *)
Lemma no_user_no_rows (userID : string) (us : list UserRow) :
  (∀ u : UserRow, In u us → user_id u ≠ userID) →
  List.filter (has_user_id userID) us = [].
Proof.
  induction us as [|u us IH]; intros H; [reflexivity|].
  cbn. rewrite IH by (intros u' Hu'; apply H; by right).
  unfold has_user_id. destruct (user_id u =? userID)%string eqn:Hhit; [|reflexivity].
  apply String.eqb_eq in Hhit. by destruct (H u (or_introl eq_refl)).
Qed.

(** ... and changes none. *)
Lemma no_user_no_change (userID : string) (parentID : option string) (now : Z)
    (us : list UserRow) :
  (∀ u : UserRow, In u us → user_id u ≠ userID) →
  map (λ u, if has_user_id userID u then set_parent parentID now u else u) us = us.
Proof.
  induction us as [|u us IH]; intros H; [reflexivity|].
  cbn. rewrite IH by (intros u' Hu'; apply H; by right).
  unfold has_user_id. destruct (user_id u =? userID)%string eqn:Hhit; [|reflexivity].
  apply String.eqb_eq in Hhit. by destruct (H u (or_introl eq_refl)).
Qed.

(** *** Strings *)

Lemma prefix_append (s t : string) : String.prefix s (s +:+ t) = true.
Proof.
  induction s as [|a s IH]; [by destruct t|].
  change (String a s +:+ t) with (String a (s +:+ t)). cbn [String.prefix].
  by destruct (Ascii.ascii_dec a a).
Qed.

(** [Contains] finds an occurrence wherever it stands. *)
Lemma Contains_append (pre substr post : string) :
  Contains (pre +:+ substr +:+ post) substr = true.
Proof.
  induction pre as [|a pre IH].
  - change ("" +:+ substr +:+ post) with (substr +:+ post).
    destruct (substr +:+ post) eqn:E; cbn [Contains]; by rewrite <- E, prefix_append.
  - change (String a pre +:+ substr +:+ post) with (String a (pre +:+ substr +:+ post)).
    cbn [Contains]. rewrite IH. by destruct (String.prefix _ _).
Qed.

(** *** Calls and lookups *)

Lemma eqb_empty_false (x : string) : x ≠ ""%string → (x =? "")%string = false.
Proof. intros H. by apply String.eqb_neq. Qed.

Lemma new_calls_app (w : services.World) (sy : Sys) (t : list services.Call) :
  new_calls w (services.mkWorld sy (services.calls w ++ t)) = t.
Proof. unfold new_calls. simpl. apply drop_app_length. Qed.

Lemma new_calls_same (w : services.World) : new_calls w w = [].
Proof. unfold new_calls. apply drop_all. Qed.

Lemma existsb_none {A : Type} (f : A → bool) (l : list A) :
  (∀ x, In x l → f x = false) → existsb f l = false.
Proof.
  induction l as [|a l IH]; intros H; [reflexivity|].
  simpl. rewrite (H a (or_introl eq_refl)). apply IH. intros x Hx. apply H. by right.
Qed.

Lemma map_index_field (details : option (gmap string any)) (k : string) :
  map_index details k
  = match field details k with Some v => (v, true) | None => (anyNil, false) end.
Proof. unfold map_index, field. destruct details as [g|]; [|reflexivity]. by destruct (g !! k). Qed.

Lemma both_user (a b : string) :
  (a =? "user")%string && (b =? "user")%string = true ↔ a = "user"%string ∧ b = "user"%string.
Proof. rewrite andb_true_iff, !String.eqb_eq. tauto. Qed.

Lemma user_calls_to_persist (categoryId entityName userId : string)
    (details : option (gmap string any)) (parentEntityID parentCategoryID : string) (k : nat) :
  user_calls (take k (calls_to_persist categoryId entityName userId details parentEntityID
                                       parentCategoryID)) = [].
Proof. by do 5 (destruct k as [|k]; [reflexivity|]). Qed.

Lemma user_calls_to_persist_all (categoryId entityName userId : string)
    (details : option (gmap string any)) (parentEntityID parentCategoryID : string) :
  user_calls (calls_to_persist categoryId entityName userId details parentEntityID
                               parentCategoryID) = [].
Proof. reflexivity. Qed.

(** The lookups of steps 1 and 2 are functions of the state they start in. *)
Lemma Resolved_functional (r : EntityRepository) (categoryId parentEntityID : string)
    (s0 : Sys) (c c' t t' u u' : string) (s3 s3' : Sys) :
  Resolved r categoryId parentEntityID s0 c t u s3 →
  Resolved r categoryId parentEntityID s0 c' t' u' s3' →
  c = c' ∧ t = t' ∧ u = u' ∧ s3 = s3'.
Proof.
  intros (s1 & s2 & E1 & E2 & E3) (s1' & s2' & E1' & E2' & E3').
  rewrite E1 in E1'. injection E1' as -> ->.
  rewrite E2 in E2'. injection E2' as -> ->.
  rewrite E3 in E3'. by injection E3' as -> ->.
Qed.

Lemma user_calls_app (l k : list services.Call) :
  user_calls (l ++ k) = user_calls l ++ user_calls k.
Proof. apply List.filter_app. Qed.

(** *** The engine, over any repositories *)

Section Engine.

Variable s : services.EntityService.

(** C8.  [CheckEntityExists] on the empty user id fails with the engine's
    own validation error and leaves the world as it was, so storage is not
    consulted.  On a non-empty user id it makes exactly one call of the
    store's presence check, on the store's current state, and returns that
    call's answer unchanged: nothing is remembered between calls.  Over the
    store of the specification, an id that owns no entity yields false and
    no error. *)
Theorem CheckEntityExists_validates_then_delegates (w : services.World) :
  services.CheckEntityExists s "" w
    = ((false, Some (errorString "user ID cannot be empty")), w)
  ∧ (∀ userId : string, userId ≠ ""%string →
      let answer := CheckEntityPresence (services.repo s) userId (services.sys w) in
      services.CheckEntityExists s userId w
        = (fst answer,
           services.mkWorld (snd answer)
             (services.calls w ++ [services.CallCheckEntityPresence userId])))
  ∧ (services.repo s = memstore.store →
     ∀ userId : string, userId ≠ ""%string →
       fault (database (services.sys w)) = None →
       (∀ e : Entity, In e (z_entities (database (services.sys w))) →
                      entity_user_id e ≠ userId) →
       fst (services.CheckEntityExists s userId w) = (false, None)).
Proof.
  assert (Hdelegate : ∀ userId : string, userId ≠ ""%string →
      services.CheckEntityExists s userId w
        = (fst (CheckEntityPresence (services.repo s) userId (services.sys w)),
           services.mkWorld
             (snd (CheckEntityPresence (services.repo s) userId (services.sys w)))
             (services.calls w ++ [services.CallCheckEntityPresence userId]))).
  { intros userId Hne. unfold services.CheckEntityExists.
    rewrite (eqb_empty_false _ Hne). unfold services.invoke.
    by destruct (CheckEntityPresence _ _ _). }
  split; [reflexivity|]. split; [exact Hdelegate|].
  intros Hrepo userId Hne Hf Hnone. rewrite (Hdelegate _ Hne), Hrepo. cbn.
  unfold memstore.mem_CheckEntityPresence, memstore.statement. rewrite Hf. cbn.
  f_equal. apply existsb_none. intros e He. apply String.eqb_neq. by apply Hnone.
Qed.

(** C10.  [GetEntityHierarchy] on the empty root id fails with the engine's
    own validation error; the world is unchanged and no call reaches the
    entity store. *)
Theorem GetEntityHierarchy_rejects_empty_root (w : services.World) :
  let out := services.GetEntityHierarchy s "" w in
  fst out = (None, Some (errorString "root entity ID cannot be empty"))
  ∧ snd out = w
  ∧ new_calls w (snd out) = [].
Proof.
  simpl. split; [reflexivity|]. split; [reflexivity|]. apply new_calls_same.
Qed.

(** C6.  For a non-empty entity id, [ListEntityChildren] with a level below
    -1 fails with the engine's own validation error, leaves the world as it
    was and makes no call; with level -1, 0 or any positive integer it makes
    exactly one call of the store's [ListEntityChildren] with the given
    level and category type, and returns that call's answer. *)
Theorem ListEntityChildren_level_check (w : services.World) (entityId : string)
    (level : Z) (categoryType : string) :
  entityId ≠ ""%string →
  let out := services.ListEntityChildren s entityId level categoryType w in
  ((level < -1)%Z →
     fst out
     = (None,
        Some (errorString
                "invalid level: must be -1 (all levels), 0 (direct children only), or a positive integer"))
     ∧ snd out = w ∧ new_calls w (snd out) = [])
  ∧ ((-1 ≤ level)%Z →
     let answer :=
       ListEntityChildren (services.repo s) entityId level categoryType (services.sys w) in
     out = (fst answer,
            services.mkWorld (snd answer)
              (services.calls w
                 ++ [services.CallListEntityChildren entityId level categoryType]))).
Proof.
  intros Hne out. subst out. unfold services.ListEntityChildren.
  rewrite (eqb_empty_false _ Hne). split.
  - intros Hlt. apply Z.ltb_lt in Hlt. rewrite Hlt. simpl.
    split; [reflexivity|]. split; [reflexivity|]. apply new_calls_same.
  - intros Hge. apply Z.ltb_ge in Hge. rewrite Hge.
    unfold services.invoke.
    by destruct (ListEntityChildren _ _ _ _ _).
Qed.

(** C7.  [CreateRootEntity] with an empty category id, or with an empty
    name, fails with the engine's own validation error and leaves the world
    as it was.  Otherwise it makes exactly one call of the store's
    [CreateRootEntity], the operation that takes no parent, passing a nil
    detail document as the empty document and any other document as it is,
    and returns that call's answer.  Over the store of the specification
    the new entity has no parent and depth 0, and its id is returned. *)
Theorem CreateRootEntity_validates_defaults_persists (w : services.World)
    (categoryId entityName userId : string) (details : option (gmap string any)) :
  let out := services.CreateRootEntity s categoryId entityName userId details w in
  (categoryId = ""%string ∨ entityName = ""%string →
     out = ((""%string,
             Some (errorString (if (categoryId =? "")%string
                                then "category ID cannot be empty"
                                else "entity name cannot be empty"))), w))
  ∧ (categoryId ≠ ""%string → entityName ≠ ""%string →
     let answer :=
       CreateRootEntity (services.repo s) categoryId entityName userId (or_empty details)
                        (services.sys w) in
     out = (fst answer,
            services.mkWorld (snd answer)
              (services.calls w
                 ++ [services.CallCreateRootEntity categoryId entityName userId
                                                   (or_empty details)]))
     ∧ (details = None → or_empty details = Some ∅)
     ∧ (details ≠ None → or_empty details = details))
  ∧ (services.repo s = memstore.store →
     categoryId ≠ ""%string → entityName ≠ ""%string →
     fault (database (services.sys w)) = None →
     ∃ e : Entity,
       fst out = (entity_id e, None)
       ∧ z_entities (database (services.sys (snd out)))
         = z_entities (database (services.sys w)) ++ [e]
       ∧ entity_parent_id e = None
       ∧ entity_depth e = 0%nat
       ∧ entity_category_id e = categoryId
       ∧ entity_name e = entityName
       ∧ entity_details e = or_empty details).
Proof.
  intros out. subst out. unfold services.CreateRootEntity.
  split.
  { intros Hempty. destruct (categoryId =? "")%string eqn:Hc; [reflexivity|].
    destruct Hempty as [->| ->]; [discriminate|reflexivity]. }
  split.
  - intros Hc Hn. rewrite (eqb_empty_false _ Hc), (eqb_empty_false _ Hn).
    split; [|split].
    + unfold services.invoke, or_empty. by destruct (CreateRootEntity _ _ _ _ _ _).
    + by intros ->.
    + by destruct details.
  - intros Hr Hc Hn Hf. rewrite (eqb_empty_false _ Hc), (eqb_empty_false _ Hn), Hr.
    unfold services.invoke. simpl. unfold memstore.mem_CreateRootEntity, memstore.statement.
    rewrite Hf. simpl.
    by eexists (mkEntity _ entityName categoryId None userId 0 (or_empty details) _ _).
Qed.

(** Symbolic execution of [CreateSubEntity] up to the cross-link check. *)
Lemma CreateSubEntity_from_cross_link (w : services.World)
    (categoryId entityName userId : string) (details : option (gmap string any))
    (parentEntityID parentCategoryID parentType currentType subentityID : string) (s4 : Sys) :
  ReachesCrossLink s categoryId entityName userId details parentEntityID (services.sys w)
                   parentCategoryID parentType currentType subentityID s4 →
  let w4 :=
    services.mkWorld s4
      (services.calls w
         ++ calls_to_persist categoryId entityName userId details parentEntityID
                             parentCategoryID) in
  services.CreateSubEntity s categoryId entityName userId details parentEntityID w
  = if (parentType =? "user")%string && (currentType =? "user")%string then
      match field (or_empty details) "subuser_id" with
      | None =>
          ((""%string,
            Some (Errorf_w_string "subuser_id not found in details : " parentType)), w4)
      | Some (anyString subuserID) =>
          let link :=
            UpdateUserParentID (services.userRepo s) subuserID (Some parentEntityID) s4 in
          (match fst link with
           | Some err =>
               (""%string, Some (Errorf_w "failed to update user parent ID: " err))
           | None => (subentityID, None)
           end,
           services.mkWorld (snd link)
             (services.calls w4
                ++ [services.CallUpdateUserParentID subuserID (Some parentEntityID)]))
      | Some _ => ((""%string, Some (Errorf "subuser_id must be a string")), w4)
      end
    else ((subentityID, None), w4).
Proof.
  intros (Hc & Hn & s3 & (s1 & s2 & E1 & E2 & E3) & E4) w4. subst w4.
  unfold Persisted in E4. unfold services.CreateSubEntity.
  rewrite (eqb_empty_false _ Hc), (eqb_empty_false _ Hn).
  fold (or_empty details).
  unfold services.bind, services.invoke, services.ret. simpl.
  rewrite E1. simpl. rewrite E2. simpl. rewrite E3. simpl. rewrite E4. simpl.
  unfold calls_to_persist. rewrite <- !app_assoc. simpl.
  destruct ((parentType =? "user")%string && (currentType =? "user")%string); [|reflexivity].
  rewrite map_index_field.
  destruct (field (or_empty details) "subuser_id") as [v|]; [|reflexivity].
  destruct v; simpl; try reflexivity.
  destruct (UpdateUserParentID _ _ _ _) as [[e|] s5]; simpl; by rewrite <- !app_assoc.
Qed.

(** Every run of [CreateSubEntity] either gets through steps 1 to 3 or stops
    with an error after the first [k] of their calls. *)
Lemma CreateSubEntity_paths (w : services.World)
    (categoryId entityName userId : string) (details : option (gmap string any))
    (parentEntityID : string) :
  let out := services.CreateSubEntity s categoryId entityName userId details parentEntityID w in
  (∃ (parentCategoryID parentType currentType subentityID : string) (s4 : Sys),
     ReachesCrossLink s categoryId entityName userId details parentEntityID (services.sys w)
                      parentCategoryID parentType currentType subentityID s4)
  ∨ (∃ (parentCategoryID : string) (k : nat) (e : error),
       (k ≤ 4)%nat
       ∧ fst out = (""%string, Some e)
       ∧ new_calls w (snd out)
         = take k (calls_to_persist categoryId entityName userId details parentEntityID
                                    parentCategoryID)).
Proof.
  intros out. subst out. unfold services.CreateSubEntity.
  destruct (categoryId =? "")%string eqn:Hc.
  { right. exists ""%string, 0%nat. eexists. split; [lia|]. split; [reflexivity|].
    apply new_calls_same. }
  destruct (entityName =? "")%string eqn:Hn.
  { right. exists ""%string, 0%nat. eexists. split; [lia|]. split; [reflexivity|].
    apply new_calls_same. }
  apply String.eqb_neq in Hc, Hn. fold (or_empty details).
  unfold services.bind, services.invoke, services.ret. simpl.
  destruct (GetCategoryIDByEntityID _ _ _) as [[pcid [e|]] s1] eqn:E1; simpl.
  { right. exists pcid, 1%nat. eexists. split; [lia|]. split; [reflexivity|].
    apply new_calls_app. }
  destruct (GetCategoryType _ pcid s1) as [[pt [e|]] s2] eqn:E2; simpl.
  { right. exists pcid, 2%nat. eexists. split; [lia|]. split; [reflexivity|].
    rewrite <- !app_assoc. apply new_calls_app. }
  destruct (GetCategoryType _ categoryId s2) as [[ct [e|]] s3] eqn:E3; simpl.
  { right. exists pcid, 3%nat. eexists. split; [lia|]. split; [reflexivity|].
    rewrite <- !app_assoc. apply new_calls_app. }
  destruct (repositories.CreateSubEntity _ _ _ _ _ _ s3) as [[id [e|]] s4] eqn:E4; simpl.
  { right. exists pcid, 4%nat. eexists. split; [lia|]. split; [reflexivity|].
    rewrite <- !app_assoc. apply new_calls_app. }
  left. exists pcid, pt, ct, id, s4. split; [done|]. split; [done|].
  exists s3. split; [by exists s1, s2|done].
Qed.

(** The calls of a run that got through steps 1 to 3. *)
Lemma CreateSubEntity_cross_link_calls (w : services.World)
    (categoryId entityName userId : string) (details : option (gmap string any))
    (parentEntityID parentCategoryID parentType currentType subentityID : string) (s4 : Sys) :
  ReachesCrossLink s categoryId entityName userId details parentEntityID (services.sys w)
                   parentCategoryID parentType currentType subentityID s4 →
  new_calls w (snd (services.CreateSubEntity s categoryId entityName userId details
                                             parentEntityID w))
  = calls_to_persist categoryId entityName userId details parentEntityID parentCategoryID
    ++ (if (parentType =? "user")%string && (currentType =? "user")%string then
          match field (or_empty details) "subuser_id" with
          | Some (anyString subuserID) =>
              [services.CallUpdateUserParentID subuserID (Some parentEntityID)]
          | _ => []
          end
        else []).
Proof.
  intros Hreach. rewrite (CreateSubEntity_from_cross_link _ _ _ _ _ _ _ _ _ _ _ Hreach).
  cbv zeta.
  destruct ((parentType =? "user")%string && (currentType =? "user")%string);
    [|rewrite app_nil_r; apply new_calls_app].
  destruct (field (or_empty details) "subuser_id") as [v|];
    [|rewrite app_nil_r; apply new_calls_app].
  destruct v; rewrite ?app_nil_r; try apply new_calls_app.
  cbn [snd services.calls]. rewrite <- app_assoc. apply new_calls_app.
Qed.

(** C1, as amended.  The user repository is called if and only if the call
    has valid inputs, the three resolutions and the persistence step
    succeed, both category types are "user" and [details] holds a string
    under "subuser_id"; it then receives exactly one [UpdateUserParentID]
    call, with that string and the supplied parent entity id.  When either
    resolved type differs from "user" it is never called, whatever
    [details] holds. *)
Theorem CreateSubEntity_cross_link_condition (w : services.World)
    (categoryId entityName userId : string) (details : option (gmap string any))
    (parentEntityID : string) :
  let out := services.CreateSubEntity s categoryId entityName userId details parentEntityID w in
  let linked := user_calls (new_calls w (snd out)) in
  (∀ (parentCategoryID subentityID subuserID : string) (s4 : Sys),
     ReachesCrossLink s categoryId entityName userId details parentEntityID (services.sys w)
                      parentCategoryID "user" "user" subentityID s4 →
     field (or_empty details) "subuser_id" = Some (anyString subuserID) →
     linked = [services.CallUpdateUserParentID subuserID (Some parentEntityID)])
  ∧ (linked ≠ [] →
     ∃ (parentCategoryID subentityID subuserID : string) (s4 : Sys),
       ReachesCrossLink s categoryId entityName userId details parentEntityID (services.sys w)
                        parentCategoryID "user" "user" subentityID s4
       ∧ field (or_empty details) "subuser_id" = Some (anyString subuserID))
  ∧ (∀ (parentCategoryID parentType currentType : string) (s3 : Sys),
       Resolved (services.repo s) categoryId parentEntityID (services.sys w)
                parentCategoryID parentType currentType s3 →
       parentType ≠ "user"%string ∨ currentType ≠ "user"%string →
       linked = []).
Proof.
  intros out linked. subst out linked. split; [|split].
  - intros pcid id sub s4 Hreach Hsub.
    rewrite (CreateSubEntity_cross_link_calls _ _ _ _ _ _ _ _ _ _ _ Hreach).
    rewrite Hsub, user_calls_app, user_calls_to_persist_all. reflexivity.
  - intros Hne.
    destruct (CreateSubEntity_paths w categoryId entityName userId details parentEntityID)
      as [(pcid & pt & ct & id & s4 & Hreach)|(pcid & k & e & _ & _ & Hk)].
    + rewrite (CreateSubEntity_cross_link_calls _ _ _ _ _ _ _ _ _ _ _ Hreach) in Hne.
      rewrite user_calls_app, user_calls_to_persist_all in Hne.
      destruct ((pt =? "user")%string && (ct =? "user")%string) eqn:Hb; [|done].
      apply both_user in Hb as [-> ->].
      destruct (field (or_empty details) "subuser_id") as [v|] eqn:Hf; [|done].
      destruct v as [| | |sub| |]; try done. by exists pcid, id, sub, s4.
    + rewrite Hk, user_calls_to_persist in Hne. done.
  - intros pcid pt ct s3 Hres Htypes.
    destruct (CreateSubEntity_paths w categoryId entityName userId details parentEntityID)
      as [(pcid' & pt' & ct' & id & s4 & Hreach)|(pcid' & k & e & _ & _ & Hk)].
    + rewrite (CreateSubEntity_cross_link_calls _ _ _ _ _ _ _ _ _ _ _ Hreach).
      destruct Hreach as (_ & _ & s3' & Hres' & _).
      destruct (Resolved_functional _ _ _ _ _ _ _ _ _ _ _ _ Hres Hres') as (_ & <- & <- & _).
      destruct ((pt =? "user")%string && (ct =? "user")%string) eqn:Hb.
      * apply both_user in Hb. tauto.
      * by rewrite app_nil_r, user_calls_to_persist_all.
    + by rewrite Hk, user_calls_to_persist.
Qed.

(** C2, as amended.  When the call gets through persistence, both category
    types are "user" and [details] holds a string under "subuser_id", the
    engine asks the user repository to set that subuser's parent pointer to
    the supplied parent entity id, and with the PostgreSQL user repository
    on a working connection every row of that subuser then has this parent
    id. *)
Theorem CreateSubEntity_links_subuser_to_parent_entity (w : services.World)
    (categoryId entityName userId : string) (details : option (gmap string any))
    (parentEntityID parentCategoryID subentityID subuserID : string) (s4 : Sys) :
  ReachesCrossLink s categoryId entityName userId details parentEntityID (services.sys w)
                   parentCategoryID "user" "user" subentityID s4 →
  field (or_empty details) "subuser_id" = Some (anyString subuserID) →
  let out := services.CreateSubEntity s categoryId entityName userId details parentEntityID w in
  let link :=
    UpdateUserParentID (services.userRepo s) subuserID (Some parentEntityID) s4 in
  user_calls (new_calls w (snd out))
    = [services.CallUpdateUserParentID subuserID (Some parentEntityID)]
  ∧ services.sys (snd out) = snd link
  ∧ (fst link = None → fst out = (subentityID, None))
  ∧ (∀ pool : Pool,
       services.userRepo s = NewUserRepository (Some pool) →
       fault (database s4) = None →
       ∀ u : UserRow,
         In u (z_users (database (services.sys (snd out)))) →
         user_id u = subuserID →
         user_parent_id u = Some parentEntityID).
Proof.
  intros Hreach Hsub out link. subst out link.
  split.
  { rewrite (CreateSubEntity_cross_link_calls _ _ _ _ _ _ _ _ _ _ _ Hreach).
    by rewrite Hsub, user_calls_app, user_calls_to_persist_all. }
  rewrite (CreateSubEntity_from_cross_link _ _ _ _ _ _ _ _ _ _ _ Hreach).
  cbv zeta. rewrite Hsub. cbn [andb String.eqb Ascii.eqb Bool.eqb snd fst services.sys].
  split; [reflexivity|]. split; [by intros ->|].
  intros pool Hrepo Hfault u Hin Hid. rewrite Hrepo in Hin.
  change (UpdateUserParentID (NewUserRepository (Some pool)))
    with (UserRepository_UpdateUserParentID (mkUserRepository (Some pool))) in Hin.
  rewrite UpdateUserParentID_users in Hin by done.
  apply in_map_iff in Hin as (u0 & Hu0 & _). subst u.
  unfold has_user_id in *. destruct (user_id u0 =? subuserID)%string eqn:Hhit; [done|].
  apply String.eqb_neq in Hhit. done.
Qed.

(** C3.  When the persistence step has succeeded and the call then fails,
    because "subuser_id" is missing, is no string, or [UpdateUserParentID]
    returns an error, the caller gets an error, and after the persistence
    call the engine makes no further call to the entity store: the
    repositories are left as persistence (and, in the third case, the user
    repository's own method) left them, and the PostgreSQL user repository
    does not touch the entities. *)
Theorem CreateSubEntity_failure_after_persist_keeps_entity (w : services.World)
    (categoryId entityName userId : string) (details : option (gmap string any))
    (parentEntityID parentCategoryID subentityID : string) (s4 : Sys) :
  ReachesCrossLink s categoryId entityName userId details parentEntityID (services.sys w)
                   parentCategoryID "user" "user" subentityID s4 →
  let out := services.CreateSubEntity s categoryId entityName userId details parentEntityID w in
  let persisted :=
    calls_to_persist categoryId entityName userId details parentEntityID parentCategoryID in
  (field (or_empty details) "subuser_id" = None →
     (∃ e : error, fst out = (""%string, Some e))
     ∧ snd out = services.mkWorld s4 (services.calls w ++ persisted))
  ∧ (∀ v : any,
       field (or_empty details) "subuser_id" = Some v →
       (∀ x : string, v ≠ anyString x) →
       (∃ e : error, fst out = (""%string, Some e))
       ∧ snd out = services.mkWorld s4 (services.calls w ++ persisted))
  ∧ (∀ (subuserID : string) (e : error) (s5 : Sys),
       field (or_empty details) "subuser_id" = Some (anyString subuserID) →
       UpdateUserParentID (services.userRepo s) subuserID (Some parentEntityID) s4
         = (Some e, s5) →
       fst out = (""%string, Some (Errorf_w "failed to update user parent ID: " e))
       ∧ snd out
         = services.mkWorld s5
             (services.calls w ++ persisted
                ++ [services.CallUpdateUserParentID subuserID (Some parentEntityID)])
       ∧ (∀ dbPool : option Pool,
            services.userRepo s = NewUserRepository dbPool →
            z_entities (database s5) = z_entities (database s4)))
  ∧ (∃ t : list services.Call,
       new_calls w (snd out) = persisted ++ t
       ∧ Forall (λ c, services.is_entity_call c = false) t).
Proof.
  intros Hreach out persisted. subst out persisted.
  rewrite (CreateSubEntity_cross_link_calls _ _ _ _ _ _ _ _ _ _ _ Hreach).
  rewrite (CreateSubEntity_from_cross_link _ _ _ _ _ _ _ _ _ _ _ Hreach).
  cbv zeta. cbn [andb String.eqb Ascii.eqb Bool.eqb].
  split; [|split; [|split]].
  - intros ->. split; [by eexists|reflexivity].
  - intros v -> Hv. destruct v as [| | |x| |]; try (split; [by eexists|reflexivity]).
    by destruct (Hv x).
  - intros sub e s5 -> Hlink. rewrite Hlink. cbn [fst snd services.calls].
    split; [reflexivity|]. split; [by rewrite <- app_assoc|].
    intros dbPool Hrepo. rewrite Hrepo in Hlink.
    change s5 with (snd (Some e, s5)). rewrite <- Hlink.
    apply UpdateUserParentID_entities.
  - eexists. split; [reflexivity|].
    destruct (field (or_empty details) "subuser_id") as [v|]; [|constructor].
    destruct v; repeat constructor.
Qed.

(** C4, as amended.  When the call gets through persistence and both
    category types are "user": without a "subuser_id" key the call fails
    with a plain error whose message contains "subuser_id not found"; with
    a value that is no string it fails with a plain error whose message
    contains "must be a string"; in both cases the user repository is not
    called. *)
Theorem CreateSubEntity_subuser_id_validation (w : services.World)
    (categoryId entityName userId : string) (details : option (gmap string any))
    (parentEntityID parentCategoryID subentityID : string) (s4 : Sys) :
  ReachesCrossLink s categoryId entityName userId details parentEntityID (services.sys w)
                   parentCategoryID "user" "user" subentityID s4 →
  let out := services.CreateSubEntity s categoryId entityName userId details parentEntityID w in
  (field (or_empty details) "subuser_id" = None →
     ∃ e : error,
       fst out = (""%string, Some e)
       ∧ Unwrap e = None
       ∧ Contains (Error e) "subuser_id not found" = true
       ∧ user_calls (new_calls w (snd out)) = [])
  ∧ (∀ v : any,
       field (or_empty details) "subuser_id" = Some v →
       (∀ x : string, v ≠ anyString x) →
       ∃ e : error,
         fst out = (""%string, Some e)
         ∧ Unwrap e = None
         ∧ Contains (Error e) "must be a string" = true
         ∧ user_calls (new_calls w (snd out)) = []).
Proof.
  intros Hreach out. subst out.
  rewrite (CreateSubEntity_cross_link_calls _ _ _ _ _ _ _ _ _ _ _ Hreach).
  rewrite (CreateSubEntity_from_cross_link _ _ _ _ _ _ _ _ _ _ _ Hreach).
  cbv zeta. cbn [andb String.eqb Ascii.eqb Bool.eqb].
  split.
  - intros ->. eexists. split; [reflexivity|]. split; [reflexivity|].
    split; [reflexivity|]. by rewrite app_nil_r, user_calls_to_persist_all.
  - intros v -> Hv. destruct v as [| | |x| |];
      try (eexists; split; [reflexivity|]; split; [reflexivity|];
           split; [reflexivity|]; by rewrite app_nil_r, user_calls_to_persist_all).
    by destruct (Hv x).
Qed.

(** C5.  [CreateSubEntity] makes its calls in one fixed order: the parent's
    category id, the parent's category type, the new entity's own category
    type, persistence, and then, under the cross-link condition, the
    cross-link; each call runs on the state the call before it left.  The
    calls of every run are an initial part of that sequence, and a run with
    an empty category id or name makes none.  With valid inputs the calls
    made are exactly these: when one of the three resolutions fails, the
    calls up to that resolution, the call returns an error wrapping the
    cause, the repositories are as the failed lookup left them and the
    persistence call is not among the calls made; when persistence fails,
    the three resolutions and the persistence call, and its error comes
    back whatever [details] holds; when persistence succeeds, the three
    resolutions, the persistence call and, last and only if both types are
    "user" and [details] holds a string under "subuser_id", the cross-link
    call, made on the state persistence left. *)
Theorem CreateSubEntity_step_order (w : services.World)
    (categoryId entityName userId : string) (details : option (gmap string any))
    (parentEntityID : string) :
  let r := services.repo s in
  let out := services.CreateSubEntity s categoryId entityName userId details parentEntityID w in
  let made := new_calls w (snd out) in
  let no_persist := Forall (λ c, is_persist_call c = false) made in
  let step1 := services.CallGetCategoryIDByEntityID parentEntityID in
  let step3 := services.CallGetCategoryType categoryId in
  let step4 :=
    services.CallCreateSubEntity categoryId entityName userId (or_empty details)
                                 parentEntityID in
  (∃ parentCategoryID subuserID : string,
     made
       `prefix_of`
     [ step1;
       services.CallGetCategoryType parentCategoryID;
       step3;
       step4;
       services.CallUpdateUserParentID subuserID (Some parentEntityID) ])
  ∧ (categoryId = ""%string ∨ entityName = ""%string →
     made = [] ∧ snd out = w ∧ ∃ e : error, fst out = (""%string, Some e))
  ∧ (categoryId ≠ ""%string → entityName ≠ ""%string →
     (∀ (c : string) (e : error) (s1 : Sys),
        GetCategoryIDByEntityID r parentEntityID (services.sys w) = ((c, Some e), s1) →
        fst out = (""%string, Some (Errorf_w "failed to get parent's category ID: " e))
        ∧ services.sys (snd out) = s1
        ∧ made = [step1]
        ∧ no_persist)
     ∧ (∀ (c t : string) (e : error) (s1 s2 : Sys),
        GetCategoryIDByEntityID r parentEntityID (services.sys w) = ((c, None), s1) →
        GetCategoryType r c s1 = ((t, Some e), s2) →
        fst out = (""%string, Some (Errorf_w "failed to get parent's category type: " e))
        ∧ services.sys (snd out) = s2
        ∧ made = [step1; services.CallGetCategoryType c]
        ∧ no_persist)
     ∧ (∀ (c t u : string) (e : error) (s1 s2 s3 : Sys),
        GetCategoryIDByEntityID r parentEntityID (services.sys w) = ((c, None), s1) →
        GetCategoryType r c s1 = ((t, None), s2) →
        GetCategoryType r categoryId s2 = ((u, Some e), s3) →
        fst out = (""%string, Some (Errorf_w "failed to get parent's category type: " e))
        ∧ services.sys (snd out) = s3
        ∧ made = [step1; services.CallGetCategoryType c; step3]
        ∧ no_persist)
     ∧ (∀ (c t u id : string) (e : error) (s1 s2 s3 s4 : Sys),
        GetCategoryIDByEntityID r parentEntityID (services.sys w) = ((c, None), s1) →
        GetCategoryType r c s1 = ((t, None), s2) →
        GetCategoryType r categoryId s2 = ((u, None), s3) →
        repositories.CreateSubEntity r categoryId entityName userId (or_empty details)
                                     parentEntityID s3
        = ((id, Some e), s4) →
        fst out = (""%string, Some (Errorf_w "failed to create sub-entity: " e))
        ∧ services.sys (snd out) = s4
        ∧ made = [step1; services.CallGetCategoryType c; step3; step4])
     ∧ (∀ (c t u id : string) (s1 s2 s3 s4 : Sys),
        GetCategoryIDByEntityID r parentEntityID (services.sys w) = ((c, None), s1) →
        GetCategoryType r c s1 = ((t, None), s2) →
        GetCategoryType r categoryId s2 = ((u, None), s3) →
        repositories.CreateSubEntity r categoryId entityName userId (or_empty details)
                                     parentEntityID s3
        = ((id, None), s4) →
        let link :=
          if (t =? "user")%string && (u =? "user")%string then
            match field (or_empty details) "subuser_id" with
            | Some (anyString subuserID) => Some subuserID
            | _ => None
            end
          else None in
        made
        = [step1; services.CallGetCategoryType c; step3; step4]
          ++ match link with
             | Some subuserID =>
                 [services.CallUpdateUserParentID subuserID (Some parentEntityID)]
             | None => []
             end
        ∧ services.sys (snd out)
          = match link with
            | Some subuserID =>
                snd (UpdateUserParentID (services.userRepo s) subuserID
                                        (Some parentEntityID) s4)
            | None => s4
            end)).
Proof.
  intros r out made no_persist step1 step3 step4.
  subst r out made no_persist step1 step3 step4. split; [|split].
  - destruct (CreateSubEntity_paths w categoryId entityName userId details parentEntityID)
      as [(pcid & pt & ct & id & s4 & Hreach)|(pcid & k & e & _ & _ & Hk)].
    + rewrite (CreateSubEntity_cross_link_calls _ _ _ _ _ _ _ _ _ _ _ Hreach).
      unfold calls_to_persist.
      destruct ((pt =? "user")%string && (ct =? "user")%string);
        [|exists pcid, ""%string; by eexists [_]].
      destruct (field (or_empty details) "subuser_id") as [v|];
        [|exists pcid, ""%string; by eexists [_]].
      destruct v as [| | |sub| |]; try (exists pcid, ""%string; by eexists [_]).
      exists pcid, sub. by exists [].
    + exists pcid, ""%string. rewrite Hk.
      etrans; [apply prefix_take|]. by eexists [_].
  - unfold services.CreateSubEntity, services.ret.
    intros [-> | ->].
    + cbn. split; [apply new_calls_same|]. split; [reflexivity|by eexists].
    + destruct (categoryId =? "")%string; cbn;
        (split; [apply new_calls_same|]; split; [reflexivity|by eexists]).
  - intros Hc Hn. split; [|split; [|split; [|split]]].
    + intros c e s1 E1. unfold services.CreateSubEntity.
      rewrite (eqb_empty_false _ Hc), (eqb_empty_false _ Hn).
      unfold services.bind, services.invoke, services.ret.
      rewrite E1. cbn.
      split; [reflexivity|]. split; [reflexivity|].
      rewrite new_calls_app. split; [reflexivity|]. repeat constructor.
    + intros c t e s1 s2 E1 E2. unfold services.CreateSubEntity.
      rewrite (eqb_empty_false _ Hc), (eqb_empty_false _ Hn).
      unfold services.bind, services.invoke, services.ret.
      rewrite E1. cbn. rewrite E2. cbn.
      split; [reflexivity|]. split; [reflexivity|].
      rewrite <- !app_assoc, new_calls_app. split; [reflexivity|]. repeat constructor.
    + intros c t u e s1 s2 s3 E1 E2 E3. unfold services.CreateSubEntity.
      rewrite (eqb_empty_false _ Hc), (eqb_empty_false _ Hn).
      unfold services.bind, services.invoke, services.ret.
      rewrite E1. cbn. rewrite E2. cbn. rewrite E3. cbn.
      split; [reflexivity|]. split; [reflexivity|].
      rewrite <- !app_assoc, new_calls_app. split; [reflexivity|]. repeat constructor.
    + intros c t u id e s1 s2 s3 s4 E1 E2 E3 E4. unfold services.CreateSubEntity.
      rewrite (eqb_empty_false _ Hc), (eqb_empty_false _ Hn).
      fold (or_empty details).
      unfold services.bind, services.invoke, services.ret.
      rewrite E1. cbn. rewrite E2. cbn. rewrite E3. cbn. rewrite E4. cbn.
      split; [reflexivity|]. split; [reflexivity|].
      by rewrite <- !app_assoc, new_calls_app.
    + intros c t u id s1 s2 s3 s4 E1 E2 E3 E4 link.
      assert (Hreach :
        ReachesCrossLink s categoryId entityName userId details parentEntityID
                         (services.sys w) c t u id s4).
      { split; [done|]. split; [done|]. exists s3. split; [by exists s1, s2|done]. }
      split.
      * rewrite (CreateSubEntity_cross_link_calls _ _ _ _ _ _ _ _ _ _ _ Hreach).
        unfold calls_to_persist. subst link.
        destruct ((t =? "user")%string && (u =? "user")%string); [|reflexivity].
        destruct (field (or_empty details) "subuser_id") as [v|]; [|reflexivity].
        by destruct v.
      * rewrite (CreateSubEntity_from_cross_link _ _ _ _ _ _ _ _ _ _ _ Hreach).
        cbv zeta. subst link.
        destruct ((t =? "user")%string && (u =? "user")%string); [|reflexivity].
        destruct (field (or_empty details) "subuser_id") as [v|]; [|reflexivity].
        by destruct v.
Qed.

(** C9.  On a working connection [UpdateUserParentID] returns nil when no
    row of [z_users] has the given user id: the database is unchanged and
    the only trace is a warning in the log.  Hence a [CreateSubEntity]
    cross-link that names such a subuser returns the new entity's id and no
    error. *)
Theorem UpdateUserParentID_unknown_user_is_success (pool : Pool) :
  (∀ (userID : string) (parentID : option string) (sy : Sys),
     fault (database sy) = None →
     (∀ u : UserRow, In u (z_users (database sy)) → user_id u ≠ userID) →
     UserRepository_UpdateUserParentID (mkUserRepository (Some pool)) userID parentID sy
     = (None,
        {| database := database sy;
           stderr := stderr sy
                     ++ [ "ERROR: r.db is nil in UpdateUserParentID!";
                          "Warning: No user found with ID " +:+ userID
                            +:+ " to update parent_id" ]%string |}))
  ∧ (∀ (w : services.World) (categoryId entityName userId : string)
       (details : option (gmap string any))
       (parentEntityID parentCategoryID subentityID subuserID : string) (s4 : Sys),
       services.userRepo s = NewUserRepository (Some pool) →
       ReachesCrossLink s categoryId entityName userId details parentEntityID
                        (services.sys w) parentCategoryID "user" "user" subentityID s4 →
       field (or_empty details) "subuser_id" = Some (anyString subuserID) →
       fault (database s4) = None →
       (∀ u : UserRow, In u (z_users (database s4)) → user_id u ≠ subuserID) →
       let out :=
         services.CreateSubEntity s categoryId entityName userId details parentEntityID w in
       fst out = (subentityID, None)
       ∧ database (services.sys (snd out)) = database s4).
Proof.
  assert (Hquiet : ∀ (userID : string) (parentID : option string) (sy : Sys),
     fault (database sy) = None →
     (∀ u : UserRow, In u (z_users (database sy)) → user_id u ≠ userID) →
     UserRepository_UpdateUserParentID (mkUserRepository (Some pool)) userID parentID sy
     = (None,
        {| database := database sy;
           stderr := stderr sy
                     ++ [ "ERROR: r.db is nil in UpdateUserParentID!";
                          "Warning: No user found with ID " +:+ userID
                            +:+ " to update parent_id" ]%string |})).
  { intros userID parentID sy Hf Hnone.
    unfold UserRepository_UpdateUserParentID, Exec_update_parent_id. cbn.
    rewrite Hf. cbn.
    rewrite (no_user_no_rows _ _ Hnone), (no_user_no_change _ _ _ _ Hnone). cbn.
    unfold with_database, log_Println, Sprintf_s. cbn. rewrite <- app_assoc. cbn.
    f_equal. f_equal. destruct sy as [d l]. destruct d. cbn in *. by subst. }
  split; [exact Hquiet|].
  intros w categoryId entityName userId details parentEntityID pcid id sub s4
         Hrepo Hreach Hsub Hf Hnone out. subst out.
  rewrite (CreateSubEntity_from_cross_link _ _ _ _ _ _ _ _ _ _ _ Hreach).
  cbv zeta. rewrite Hsub, Hrepo. cbn [andb String.eqb Ascii.eqb Bool.eqb].
  change (UpdateUserParentID (NewUserRepository (Some pool)))
    with (UserRepository_UpdateUserParentID (mkUserRepository (Some pool))).
  by rewrite (Hquiet _ _ _ Hf Hnone).
Qed.

End Engine.

(** ** The properties on the concrete system *)

(** The run of [scenario.svc] on category "cat-user" under parent "e7" gets
    through persistence, with both types "user" and new id "ent-9". *)
Ltac reach_in_scenario :=
  split; [discriminate|]; split; [discriminate|];
  eexists; split; [do 2 eexists; repeat split; vm_compute; reflexivity|];
  vm_compute; reflexivity.

Lemma CheckEntityExists_validates_then_delegates_witness :
  fst (services.CheckEntityExists scenario.svc "nonexistent-id" scenario.w0) = (false, None).
Proof.
  apply (proj2 (proj2 (CheckEntityExists_validates_then_delegates scenario.svc scenario.w0))
           eq_refl "nonexistent-id"%string).
  - discriminate.
  - reflexivity.
  - intros e He. vm_compute in He. destruct He as [<-|[<-|[]]]; discriminate.
Defined.

Lemma ListEntityChildren_level_check_witness :
  "e7"%string ≠ ""%string
  ∧ fst (services.ListEntityChildren scenario.svc "e7" (-2) "user" scenario.w0)
    = (None,
       Some (errorString
               "invalid level: must be -1 (all levels), 0 (direct children only), or a positive integer"))
  ∧ snd (services.ListEntityChildren scenario.svc "e7" (-2) "user" scenario.w0) = scenario.w0
  ∧ new_calls scenario.w0
      (snd (services.ListEntityChildren scenario.svc "e7" (-2) "user" scenario.w0)) = [].
Proof.
  assert (Hne : "e7"%string ≠ ""%string) by discriminate.
  split; [exact Hne|].
  apply (proj1 (ListEntityChildren_level_check scenario.svc scenario.w0 "e7" (-2) "user" Hne)).
  lia.
Defined.

Lemma CreateRootEntity_validates_defaults_persists_witness :
  ∃ e : Entity,
    fst (services.CreateRootEntity scenario.svc "cat-org" "head office" "u1" None scenario.w0)
    = (entity_id e, None)
    ∧ z_entities (database (services.sys (snd
        (services.CreateRootEntity scenario.svc "cat-org" "head office" "u1" None
                                   scenario.w0))))
      = scenario.entities ++ [e]
    ∧ entity_parent_id e = None
    ∧ entity_depth e = 0%nat
    ∧ entity_category_id e = "cat-org"%string
    ∧ entity_name e = "head office"%string
    ∧ entity_details e = Some ∅.
Proof.
  apply (proj2 (proj2
           (CreateRootEntity_validates_defaults_persists
              scenario.svc scenario.w0 "cat-org" "head office" "u1" None))).
  - reflexivity.
  - discriminate.
  - discriminate.
  - reflexivity.
Defined.

Lemma CreateSubEntity_cross_link_condition_witness :
  user_calls
    (new_calls scenario.w0
       (snd (services.CreateSubEntity scenario.svc "cat-user" "bob" "u1"
               (scenario.with_subuser (anyString "u42")) "e7" scenario.w0)))
  = [services.CallUpdateUserParentID "u42" (Some "e7")].
Proof.
  apply (proj1 (CreateSubEntity_cross_link_condition scenario.svc scenario.w0
                  "cat-user" "bob" "u1" (scenario.with_subuser (anyString "u42")) "e7")
           "cat-user"%string "ent-9"%string "u42"%string
           (scenario.persisted (scenario.with_subuser (anyString "u42")))).
  - reach_in_scenario.
  - reflexivity.
Defined.

(** C1: both category types are "user", and yet the user repository is not
    called: once because [details] has no "subuser_id" although the
    persistence step succeeds, once because the persistence step fails
    although [details] names the subuser "u42". *)
Lemma cross_link_needs_more_than_user_types :
  let out :=
    services.CreateSubEntity scenario.svc "cat-user" "bob" "u1" (Some ∅) "e7" scenario.w0 in
  let out' :=
    services.CreateSubEntity scenario.svc_failing_store "cat-user" "bob" "u1"
                             (scenario.with_subuser (anyString "u42")) "e7" scenario.w0 in
  (ReachesCrossLink scenario.svc "cat-user" "bob" "u1" (Some ∅) "e7"
                    (services.sys scenario.w0) "cat-user" "user" "user" "ent-9"
                    (scenario.persisted (Some ∅))
   ∧ services.calls (snd out)
     = [ services.CallGetCategoryIDByEntityID "e7";
         services.CallGetCategoryType "cat-user";
         services.CallGetCategoryType "cat-user";
         services.CallCreateSubEntity "cat-user" "bob" "u1" (Some ∅) "e7" ]
   ∧ user_calls (services.calls (snd out)) = [])
  ∧ (Resolved scenario.failing_store "cat-user" "e7" (services.sys scenario.w0)
              "cat-user" "user" "user" (services.sys scenario.w0)
     ∧ fst out'
       = (""%string,
          Some (wrapError "failed to create sub-entity: storage unavailable"
                          (errorString "storage unavailable")))
     ∧ user_calls (services.calls (snd out')) = []).
Proof.
  split.
  - split; [reach_in_scenario|]. split; vm_compute; reflexivity.
  - split; [do 2 eexists; repeat split; vm_compute; reflexivity|].
    split; vm_compute; reflexivity.
Qed.

Lemma CreateSubEntity_links_subuser_to_parent_entity_witness :
  ReachesCrossLink scenario.svc "cat-user" "bob" "u1"
                   (scenario.with_subuser (anyString "u42")) "e7"
                   (services.sys scenario.w0) "cat-user" "user" "user" "ent-9"
                   (scenario.persisted (scenario.with_subuser (anyString "u42")))
  ∧ field (or_empty (scenario.with_subuser (anyString "u42"))) "subuser_id"
    = Some (anyString "u42")
  ∧ user_calls
      (new_calls scenario.w0
         (snd (services.CreateSubEntity scenario.svc "cat-user" "bob" "u1"
                 (scenario.with_subuser (anyString "u42")) "e7" scenario.w0)))
    = [services.CallUpdateUserParentID "u42" (Some "e7")].
Proof.
  assert (Hreach :
    ReachesCrossLink scenario.svc "cat-user" "bob" "u1"
                     (scenario.with_subuser (anyString "u42")) "e7"
                     (services.sys scenario.w0) "cat-user" "user" "user" "ent-9"
                     (scenario.persisted (scenario.with_subuser (anyString "u42"))))
    by reach_in_scenario.
  split; [exact Hreach|]. split; [reflexivity|].
  exact (proj1 (CreateSubEntity_links_subuser_to_parent_entity scenario.svc scenario.w0
                  "cat-user" "bob" "u1" (scenario.with_subuser (anyString "u42")) "e7"
                  "cat-user" "ent-9" "u42" _ Hreach eq_refl)).
Defined.

(** C2: the new entity is "ent-9", and the subuser's parent pointer is set
    to the parent entity "e7", not to "ent-9". *)
Lemma cross_link_points_to_parent_entity :
  let out :=
    services.CreateSubEntity scenario.svc "cat-user" "bob" "u1"
      (scenario.with_subuser (anyString "u42")) "e7" scenario.w0 in
  fst out = ("ent-9"%string, None)
  ∧ user_calls (services.calls (snd out))
    = [services.CallUpdateUserParentID "u42" (Some "e7")]
  ∧ map (λ u, (user_id u, user_parent_id u))
        (z_users (database (services.sys (snd out))))
    = [("u42"%string, Some "e7"%string); ("u1"%string, None)]
  ∧ "e7"%string ≠ "ent-9"%string.
Proof.
  split; [vm_compute; reflexivity|]. split; [vm_compute; reflexivity|].
  split; [vm_compute; reflexivity|]. discriminate.
Qed.

Lemma CreateSubEntity_failure_after_persist_keeps_entity_witness :
  ReachesCrossLink scenario.svc_no_pool "cat-user" "bob" "u1"
                   (scenario.with_subuser (anyString "u42")) "e7"
                   (services.sys scenario.w0) "cat-user" "user" "user" "ent-9"
                   (scenario.persisted (scenario.with_subuser (anyString "u42")))
  ∧ fst (services.CreateSubEntity scenario.svc_no_pool "cat-user" "bob" "u1"
           (scenario.with_subuser (anyString "u42")) "e7" scenario.w0)
    = (""%string,
       Some (Errorf_w "failed to update user parent ID: "
                      (errorString "database connection is not initialized")))
  ∧ map entity_id
        (z_entities (database (services.sys (snd
           (services.CreateSubEntity scenario.svc_no_pool "cat-user" "bob" "u1"
              (scenario.with_subuser (anyString "u42")) "e7" scenario.w0)))))
    = ["e7"; "e8"; "ent-9"]%string.
Proof.
  assert (Hreach :
    ReachesCrossLink scenario.svc_no_pool "cat-user" "bob" "u1"
                     (scenario.with_subuser (anyString "u42")) "e7"
                     (services.sys scenario.w0) "cat-user" "user" "user" "ent-9"
                     (scenario.persisted (scenario.with_subuser (anyString "u42"))))
    by reach_in_scenario.
  split; [exact Hreach|].
  destruct (proj1 (proj2 (proj2
              (CreateSubEntity_failure_after_persist_keeps_entity
                 scenario.svc_no_pool scenario.w0 "cat-user" "bob" "u1"
                 (scenario.with_subuser (anyString "u42")) "e7" "cat-user" "ent-9" _ Hreach)))
              "u42"%string (errorString "database connection is not initialized")
              (log_Println "ERROR: r.db is nil in UpdateUserParentID!"
                 (log_Println "ERROR: r.db is nil in UpdateUserParentID!"
                    (scenario.persisted (scenario.with_subuser (anyString "u42")))))
              eq_refl eq_refl)
    as (Hres & Hworld & _).
  split; [exact Hres|]. rewrite Hworld. vm_compute. reflexivity.
Defined.

Lemma CreateSubEntity_subuser_id_validation_witness :
  ReachesCrossLink scenario.svc "cat-user" "bob" "u1" (scenario.with_subuser (anyNumber 7))
                   "e7" (services.sys scenario.w0) "cat-user" "user" "user" "ent-9"
                   (scenario.persisted (scenario.with_subuser (anyNumber 7)))
  ∧ ∃ e : error,
      fst (services.CreateSubEntity scenario.svc "cat-user" "bob" "u1"
             (scenario.with_subuser (anyNumber 7)) "e7" scenario.w0)
      = (""%string, Some e)
      ∧ Unwrap e = None
      ∧ Contains (Error e) "must be a string" = true
      ∧ user_calls
          (new_calls scenario.w0
             (snd (services.CreateSubEntity scenario.svc "cat-user" "bob" "u1"
                     (scenario.with_subuser (anyNumber 7)) "e7" scenario.w0)))
        = [].
Proof.
  assert (Hreach :
    ReachesCrossLink scenario.svc "cat-user" "bob" "u1" (scenario.with_subuser (anyNumber 7))
                     "e7" (services.sys scenario.w0) "cat-user" "user" "user" "ent-9"
                     (scenario.persisted (scenario.with_subuser (anyNumber 7))))
    by reach_in_scenario.
  split; [exact Hreach|].
  apply (proj2 (CreateSubEntity_subuser_id_validation scenario.svc scenario.w0
                  "cat-user" "bob" "u1" (scenario.with_subuser (anyNumber 7)) "e7"
                  "cat-user" "ent-9" _ Hreach) (anyNumber 7)).
  - reflexivity.
  - discriminate.
Defined.

(** C4: both category types are "user" and [details] has no "subuser_id",
    but the store's persistence step fails: the call fails with the
    persistence error, whose message does not mention "subuser_id". *)
Lemma subuser_id_check_comes_after_persistence :
  let out :=
    services.CreateSubEntity scenario.svc_failing_store "cat-user" "bob" "u1" (Some ∅) "e7"
                             scenario.w0 in
  Resolved scenario.failing_store "cat-user" "e7" (services.sys scenario.w0)
           "cat-user" "user" "user" (services.sys scenario.w0)
  ∧ field (or_empty (Some ∅)) "subuser_id" = None
  ∧ fst out
    = (""%string,
       Some (wrapError "failed to create sub-entity: storage unavailable"
                       (errorString "storage unavailable")))
  ∧ Contains "failed to create sub-entity: storage unavailable" "subuser_id not found"
    = false.
Proof.
  split; [do 2 eexists; repeat split; vm_compute; reflexivity|].
  split; [reflexivity|]. split; vm_compute; reflexivity.
Qed.

Lemma CreateSubEntity_step_order_witness :
  (fst (services.CreateSubEntity scenario.svc "cat-user" "bob" "u1" None "missing"
                                 scenario.w0)
   = (""%string,
      Some (Errorf_w "failed to get parent's category ID: " (errorString "entity not found")))
   ∧ services.sys
       (snd (services.CreateSubEntity scenario.svc "cat-user" "bob" "u1" None "missing"
                                      scenario.w0))
     = services.sys scenario.w0
   ∧ new_calls scenario.w0
       (snd (services.CreateSubEntity scenario.svc "cat-user" "bob" "u1" None "missing"
                                      scenario.w0))
     = [services.CallGetCategoryIDByEntityID "missing"]
   ∧ Forall (λ c, is_persist_call c = false)
       (new_calls scenario.w0
          (snd (services.CreateSubEntity scenario.svc "cat-user" "bob" "u1" None "missing"
                                         scenario.w0))))
  ∧ new_calls scenario.w0
      (snd (services.CreateSubEntity scenario.svc "cat-user" "bob" "u1"
              (scenario.with_subuser (anyString "u42")) "e7" scenario.w0))
    = [ services.CallGetCategoryIDByEntityID "e7";
        services.CallGetCategoryType "cat-user";
        services.CallGetCategoryType "cat-user";
        services.CallCreateSubEntity "cat-user" "bob" "u1"
          (scenario.with_subuser (anyString "u42")) "e7";
        services.CallUpdateUserParentID "u42" (Some "e7") ].
Proof.
  split.
  - pose proof (CreateSubEntity_step_order scenario.svc scenario.w0
                  "cat-user" "bob" "u1" None "missing") as Horder.
    cbv zeta in Horder.
    destruct Horder as (_ & _ & Hvalid).
    destruct (Hvalid ltac:(discriminate) ltac:(discriminate)) as (Hfirst & _).
    exact (Hfirst ""%string (errorString "entity not found") (services.sys scenario.w0)
             eq_refl).
  - pose proof (CreateSubEntity_step_order scenario.svc scenario.w0
                  "cat-user" "bob" "u1" (scenario.with_subuser (anyString "u42")) "e7")
      as Horder.
    cbv zeta in Horder.
    destruct Horder as (_ & _ & Hvalid).
    destruct (Hvalid ltac:(discriminate) ltac:(discriminate)) as (_ & _ & _ & _ & Hlast).
    refine (proj1 (Hlast "cat-user"%string "user"%string "user"%string "ent-9"%string
                     _ _ _ _ _ _ _ _)); vm_compute; reflexivity.
Defined.

Lemma UpdateUserParentID_unknown_user_is_success_witness :
  let out :=
    services.CreateSubEntity scenario.svc "cat-user" "bob" "u1"
      (scenario.with_subuser (anyString "ghost")) "e7" scenario.w0 in
  fst out = ("ent-9"%string, None)
  ∧ database (services.sys (snd out))
    = database (scenario.persisted (scenario.with_subuser (anyString "ghost"))).
Proof.
  apply (proj2 (UpdateUserParentID_unknown_user_is_success scenario.svc pgxPool)
           scenario.w0 "cat-user"%string "bob"%string "u1"%string
           (scenario.with_subuser (anyString "ghost")) "e7"%string "cat-user"%string
           "ent-9"%string "ghost"%string
           (scenario.persisted (scenario.with_subuser (anyString "ghost")))).
  - reflexivity.
  - reach_in_scenario.
  - reflexivity.
  - reflexivity.
  - intros u Hu. vm_compute in Hu. destruct Hu as [<-|[<-|[]]]; discriminate.
Defined.
